(** * Arty DDR3 SoC target (arty_ddr3.py): clocking, reset sequencing,
      SDRAM timing resolution and SoC composition.

    The development follows the structure of the Python target:
    - [CRG]: the [_CRG] module (PLL parameters, clock buffers, reset
      synchronizers, IDELAYCTRL calibration countdown);
    - [SDRAM]: the [MT41K128M16] module description and its resolution
      into cycle counts;
    - [SoC]: [BaseSoC], its CSR map and its constructor. *)

From Stdlib Require Import ZArith QArith Qround Bool List Lia.
From stdpp Require Import gmap strings list fin_maps.
Import ListNotations.

Local Open Scope Z_scope.

(** Build-time failures.  The composition runs once, ahead of deployment;
    every failure aborts it. *)
Inductive error : Set :=
| AssertionError
| ConstraintError (resource : string)
| MasterError.

Inductive result (A : Type) : Type :=
| Ok (a : A)
| Err (e : error).

Arguments Ok {A} a.
Arguments Err {A} e.

(* ===================================================================== *)
(** ** Clock and reset generation: class [_CRG]                           *)
(* ===================================================================== *)

Module CRG.

(** The four clock domains declared at the top of [_CRG.__init__]. *)
Inductive clock_domain : Set :=
| cd_sys
| cd_sys4x
| cd_sys4x_dqs
| cd_clk200.

(** [ClockDomain(reset_less=True)] for the two 4x domains. *)
Definition reset_less (cd : clock_domain) : bool :=
  match cd with
  | cd_sys => false
  | cd_sys4x => true
  | cd_sys4x_dqs => true
  | cd_clk200 => false
  end.

Definition clock_domain_eqb (a b : clock_domain) : bool :=
  match a, b with
  | cd_sys, cd_sys | cd_sys4x, cd_sys4x
  | cd_sys4x_dqs, cd_sys4x_dqs | cd_clk200, cd_clk200 => true
  | _, _ => false
  end.

(** Input signals the reset expressions read: the PLL's LOCKED output and
    the level of the pad obtained by [platform.request("cpu_reset")]. *)
Inductive signal : Set :=
| pll_locked
| rst.

(** Migen expressions over one-bit signals, as far as the CRG uses them
    ([~e] and [a | b]). *)
Inductive expr : Set :=
| Sig (s : signal)
| Not (e : expr)
| Or (a b : expr).

Definition env : Set := signal -> bool.

Fixpoint eval (rho : env) (e : expr) : bool :=
  match e with
  | Sig s => rho s
  | Not a => negb (eval rho a)
  | Or a b => eval rho a || eval rho b
  end.

Definition mk_env (locked reset_pad : bool) : env :=
  fun s => match s with pll_locked => locked | rst => reset_pad end.

(** The PLL outputs that carry a DIVIDE/PHASE parameter pair. *)
Inductive pll_output : Set :=
| CLKOUT0 | CLKOUT1 | CLKOUT2 | CLKOUT3 | CLKOUT4.

(** Parameters of the [PLLE2_BASE] instance.  Periods are in ns, phases in
    degrees; the Python floats written in the source are exact decimals and
    are kept as rationals. *)
Record plle2_base : Set := {
  p_STARTUP_WAIT : bool;
  p_REF_JITTER1 : Q;
  p_CLKIN1_PERIOD : Q;
  p_CLKFBOUT_MULT : Z;
  p_DIVCLK_DIVIDE : Z;
  p_CLKOUT_DIVIDE : pll_output -> Z;
  p_CLKOUT_PHASE : pll_output -> Q
}.

Definition pll : plle2_base := {|
  p_STARTUP_WAIT := false;
  p_REF_JITTER1 := 1 # 100;
  p_CLKIN1_PERIOD := 10 # 1;
  p_CLKFBOUT_MULT := 16;
  p_DIVCLK_DIVIDE := 1;
  p_CLKOUT_DIVIDE := fun o =>
    match o with
    | CLKOUT0 => 16
    | CLKOUT1 => 4
    | CLKOUT2 => 4
    | CLKOUT3 => 8
    | CLKOUT4 => 4
    end;
  p_CLKOUT_PHASE := fun o =>
    match o with
    | CLKOUT0 => 0 # 1
    | CLKOUT1 => 0 # 1
    | CLKOUT2 => 90 # 1
    | CLKOUT3 => 0 # 1
    | CLKOUT4 => 0 # 1
    end
|}.

(** The [specials] of the module: the PLL, one [BUFG] per used PLL output,
    the two reset synchronizers and the IDELAYCTRL primitive. *)
Inductive special : Set :=
| PLLE2_BASE (p : plle2_base)
| BUFG (i_I : pll_output) (o_O : clock_domain)
| AsyncResetSynchronizer (cd : clock_domain) (async_reset : expr)
| IDELAYCTRL (i_REFCLK : clock_domain).

Definition specials : list special :=
  [ PLLE2_BASE pll;
    BUFG CLKOUT0 cd_sys;
    BUFG CLKOUT1 cd_sys4x;
    BUFG CLKOUT2 cd_sys4x_dqs;
    BUFG CLKOUT3 cd_clk200;
    AsyncResetSynchronizer cd_sys (Or (Not (Sig pll_locked)) (Not (Sig rst)));
    AsyncResetSynchronizer cd_clk200 (Or (Not (Sig pll_locked)) (Sig rst));
    IDELAYCTRL cd_clk200 ].

(** *** Frequencies (MHz) and phases (degrees) *)

(** Reference frequency from the input period: 1000 / period[ns]. *)
Definition ref_MHz (p : plle2_base) : Q :=
  Qred ((1000 # 1) / p_CLKIN1_PERIOD p).

(** VCO frequency: reference * CLKFBOUT_MULT / DIVCLK_DIVIDE. *)
Definition vco_MHz (p : plle2_base) : Q :=
  Qred (ref_MHz p * inject_Z (p_CLKFBOUT_MULT p) / inject_Z (p_DIVCLK_DIVIDE p)).

(** Output frequency: VCO / CLKOUTn_DIVIDE. *)
Definition clkout_MHz (p : plle2_base) (o : pll_output) : Q :=
  Qred (vco_MHz p / inject_Z (p_CLKOUT_DIVIDE p o)).

Definition clkout_phase (p : plle2_base) (o : pll_output) : Q :=
  Qred (p_CLKOUT_PHASE p o).

(** The PLL output a domain's clock buffer is fed from. *)
Fixpoint bufg_source (l : list special) (cd : clock_domain) : option pll_output :=
  match l with
  | [] => None
  | BUFG i o :: l' => if clock_domain_eqb o cd then Some i else bufg_source l' cd
  | _ :: l' => bufg_source l' cd
  end.

Fixpoint the_pll (l : list special) : option plle2_base :=
  match l with
  | [] => None
  | PLLE2_BASE p :: _ => Some p
  | _ :: l' => the_pll l'
  end.

(** Frequency/phase tuple of one domain, if the domain is clocked. *)
Definition domain_clock (l : list special) (cd : clock_domain) : option (Q * Q) :=
  match the_pll l, bufg_source l cd with
  | Some p, Some o => Some (clkout_MHz p o, clkout_phase p o)
  | _, _ => None
  end.

(** All clocked domains, in the order the buffers are listed. *)
Fixpoint generated_domains (all l : list special) : list (clock_domain * (Q * Q)) :=
  match l with
  | [] => []
  | BUFG _ o :: l' =>
      match domain_clock all o with
      | Some fp => (o, fp) :: generated_domains all l'
      | None => generated_domains all l'
      end
  | _ :: l' => generated_domains all l'
  end.

(** *** Reset gating *)

(** The expression handed to the reset synchronizer of a domain. *)
Fixpoint async_reset_of (l : list special) (cd : clock_domain) : option expr :=
  match l with
  | [] => None
  | AsyncResetSynchronizer d e :: l' =>
      if clock_domain_eqb d cd then Some e else async_reset_of l' cd
  | _ :: l' => async_reset_of l' cd
  end.

(** Reset request of a domain under the current input levels; [None] for a
    domain without reset synchronizer.  The synchronizer asserts the
    domain's reset as soon as the request is asserted. *)
Definition cd_rst (cd : clock_domain) (rho : env) : option bool :=
  match async_reset_of specials cd with
  | Some e => Some (eval rho e)
  | None => None
  end.

(** The PLL's lock status, and the external reset request.  The system
    domain, the one that is reset on request, reads the [cpu_reset] pad
    inverted ([~rst], line 87): the request is asserted while the pad is
    low. *)
Definition lock_status (rho : env) : bool := rho pll_locked.

Definition external_reset_request (rho : env) : bool := negb (rho rst).

(** *** IDELAYCTRL calibration countdown *)

(** The two registers of the [clk200] synchronous block. *)
Record regs : Set := {
  reset_counter : Z;
  ic_reset : bool
}.

(** [Signal(4, reset=15)] and [Signal(reset=1)]. *)
Definition reset_counter_width : Z := 4.

Definition regs_reset : regs :=
  {| reset_counter := 15; ic_reset := true |}.

(** Assignment to a 4-bit signal truncates to the signal's width. *)
Definition wrap (z : Z) : Z := z mod 2 ^ reset_counter_width.

(** One clk200 edge of
    [If(reset_counter != 0, reset_counter.eq(reset_counter - 1))
       .Else(ic_reset.eq(0))]. *)
Definition sync_clk200 (s : regs) : regs :=
  if negb (reset_counter s =? 0)
  then {| reset_counter := wrap (reset_counter s - 1); ic_reset := ic_reset s |}
  else {| reset_counter := reset_counter s; ic_reset := false |}.

(** A clk200 edge seen together with the domain's reset: while the domain
    is held in reset the registers take their reset values. *)
Definition clk200_tick (domain_rst : bool) (s : regs) : regs :=
  if domain_rst then regs_reset else sync_clk200 s.

(** State after [n] edges once the domain's reset has been released. *)
Fixpoint run (n : nat) : regs :=
  match n with
  | O => regs_reset
  | S k => sync_clk200 (run k)
  end.

(** State after a sequence of edges with the given reset levels. *)
Definition run_with (rsts : list bool) (s : regs) : regs :=
  fold_left (fun st r => clk200_tick r st) rsts s.

(** States the countdown can be in after the reset release. *)
Inductive reachable : regs -> Prop :=
| reach_reset : reachable regs_reset
| reach_tick s : reachable s -> reachable (sync_clk200 s).

(** The value driving [i_RST] of the IDELAYCTRL instance. *)
Definition idelayctrl_rst (s : regs) : bool := ic_reset s.

(** Whether a special drives the clock, respectively the reset, of a
    domain. *)
Definition drives_clock (cd : clock_domain) (sp : special) : bool :=
  match sp with
  | BUFG _ o => clock_domain_eqb o cd
  | _ => false
  end.

Definition drives_reset (cd : clock_domain) (sp : special) : bool :=
  match sp with
  | AsyncResetSynchronizer d _ => clock_domain_eqb d cd
  | _ => false
  end.

End CRG.

(* ===================================================================== *)
(** ** SDRAM module description: class [MT41K128M16]                      *)
(* ===================================================================== *)

Module SDRAM.

(** [# geometry] attributes of a module class. *)
Record geometry : Set := {
  nbanks : Z;
  nrows : Z;
  ncols : Z
}.

(** [# timings] attributes of a module class, in nanoseconds.  The Python
    literals (13.75, 64*1000*1000/8192) are exact and kept as rationals. *)
Record timings_ns : Set := {
  tRP : Q;
  tRCD : Q;
  tWR : Q;
  tWTR : Q;
  tREFI : Q;
  tRFC : Q
}.

Record module_class : Set := {
  memtype : string;
  geom : geometry;
  timings : timings_ns
}.

Definition MT41K128M16 : module_class := {|
  memtype := "DDR3";
  geom := {| nbanks := 8; nrows := 16384; ncols := 1024 |};
  timings := {|
    tRP := 1375 # 100;
    tRCD := 1375 # 100;
    tWR := 15 # 1;
    tWTR := 8 # 1;
    tREFI := inject_Z (64 * 1000 * 1000) / inject_Z 8192;
    tRFC := 160 # 1
  |}
|}.

(** The same device timings with another geometry. *)
Definition with_geometry (c : module_class) (g : geometry) : module_class :=
  {| memtype := memtype c; geom := g; timings := timings c |}.

(** Modelled from the spec: the base class [SDRAMModule] (its constructor
    and its validity assertions) is imported from the SoC framework and is
    not part of this file.  A geometry value is valid when it is a power of
    two, at least 1. *)
Definition is_power_of_two (n : Z) : bool :=
  (1 <=? n) && (n =? 2 ^ Z.log2 n).

Definition valid_geometry (g : geometry) : bool :=
  is_power_of_two (nbanks g) && is_power_of_two (nrows g) && is_power_of_two (ncols g).

(** The six timings of a class, in declaration order. *)
Definition timing_list (t : timings_ns) : list Q :=
  [tRP t; tRCD t; tWR t; tWTR t; tREFI t; tRFC t].

(** Modelled from the spec: the base class [SDRAMModule] is not part of
    this file.  No timing value may be negative. *)
Definition valid_timings (t : timings_ns) : bool :=
  forallb (fun x => Qle_bool 0 x) (timing_list t).

(** Modelled from the spec: the base class [SDRAMModule] is not part of
    this file.  A duration in nanoseconds becomes a number of clock cycles
    at [clk_freq] Hz, rounded up: ceiling of (ns * clk_freq * 1e-9). *)
Definition ns_to_cycles (clk_freq : Z) (t : Q) : Z :=
  Qceiling (t * inject_Z clk_freq / inject_Z 1000000000).

(** Resolved timings, in clock cycles. *)
Record timing_settings : Set := {
  c_tRP : Z;
  c_tRCD : Z;
  c_tWR : Z;
  c_tWTR : Z;
  c_tREFI : Z;
  c_tRFC : Z
}.

Definition cycle_list (t : timing_settings) : list Z :=
  [c_tRP t; c_tRCD t; c_tWR t; c_tWTR t; c_tREFI t; c_tRFC t].

Record sdram_module : Set := {
  clk_freq : Z;
  rate : string;
  geom_settings : geometry;
  timing_settings_of : timing_settings
}.

(** Modelled from the spec: the constructor of the base class
    [SDRAMModule], called as [MT41K128M16(clk_freq, "1:4")], is not part of
    this file.  It asserts the geometry and the timings, then resolves each
    timing to cycles. *)
Definition SDRAMModule_init (c : module_class) (f : Z) (r : string)
  : result sdram_module :=
  if valid_geometry (geom c) && valid_timings (timings c)
  then Ok {|
    clk_freq := f;
    rate := r;
    geom_settings := geom c;
    timing_settings_of := {|
      c_tRP := ns_to_cycles f (tRP (timings c));
      c_tRCD := ns_to_cycles f (tRCD (timings c));
      c_tWR := ns_to_cycles f (tWR (timings c));
      c_tWTR := ns_to_cycles f (tWTR (timings c));
      c_tREFI := ns_to_cycles f (tREFI (timings c));
      c_tRFC := ns_to_cycles f (tRFC (timings c))
    |}
  |}
  else Err AssertionError.

(** Vocabulary of the statements below. *)

(** A geometry value: a power of two, at least 1. *)
Definition power_of_two (n : Z) : Prop :=
  1 <= n /\ exists k : Z, n = 2 ^ k.

(** The exact, rational number of clock periods a duration of [t] ns lasts
    at [f] Hz. *)
Definition exact_cycles (f : Z) (t : Q) : Q :=
  (t * inject_Z f / inject_Z 1000000000)%Q.

(** [c] is [x] rounded up: the least integer that is not below [x]. *)
Definition rounded_up (x : Q) (c : Z) : Prop :=
  (x <= inject_Z c)%Q /\ (inject_Z (c - 1) < x)%Q.

End SDRAM.

(* ===================================================================== *)
(** ** SoC composition: class [BaseSoC]                                   *)
(* ===================================================================== *)

Module SoC.

(** *** CSR map *)

(** The class attribute [csr_map] before the framework's entries are
    merged in. *)
Definition explicit_csr_map : gmap string Z :=
  <["ddrphy" := 17]> (<["dna" := 18]> (<["xadc" := 19]> (<["analyzer" := 20]> ∅))).

(** [csr_map.update(SoCSDRAM.csr_map)]: the framework's entries are written
    over the explicit ones, key by key.  [SoCSDRAM.csr_map] is defined by the
    framework and is a parameter here. *)
Definition csr_map (inherited : gmap string Z) : gmap string Z :=
  inherited ∪ explicit_csr_map.

(** *** Platform resources, submodules and bus interfaces *)

(** The pads a [platform.request] returns. *)
Inductive pads : Set :=
| Pads (resource : string).

(** Phases and per-phase signals of the PHY's DFI interface. *)
Inductive dfi_phase : Set := p0 | p1 | p2 | p3.

Inductive dfi_field : Set :=
| address | bank | cas_n | cs_n | ras_n | we_n | cke | odt | reset_n
| wrdata | wrdata_en | wrdata_mask
| rddata_en | rddata | rddata_valid.

Definition dfi_signal : Set := (dfi_phase * dfi_field)%type.

Definition phase_signals (p : dfi_phase) : list dfi_signal :=
  map (pair p)
    [ address; bank; cas_n; cs_n; ras_n; we_n; cke; odt; reset_n;
      wrdata; wrdata_en; wrdata_mask;
      rddata_en; rddata; rddata_valid ].

(** The list built under [# litescope]; the p2 and p3 entries are commented
    out in the source. *)
Definition analyzer_signals : list dfi_signal :=
  phase_signals p0 ++ phase_signals p1.

Inductive submodule : Set :=
| CRG_module
| DNA
| XADC
| A7DDRPHY (p : pads)
| UARTWishboneBridge (p : pads) (clk_freq : Z) (baudrate : Z)
| CPU (cpu_type : string)
| LiteScopeAnalyzer (signals : list dfi_signal) (depth : Z).

(** The Wishbone interface of a bus master. *)
Inductive wishbone : Set :=
| wishbone_of (owner : submodule).

Record sdram_registration : Set := {
  phy : string;
  sdram_controller_type : string;
  reg_geom_settings : SDRAM.geometry;
  reg_timing_settings : SDRAM.timing_settings
}.

(** The state the constructor works on: the platform's unclaimed resources
    and the SoC object under construction. *)
Record soc : Set := {
  platform : list string;
  soc_clk_freq : Z;
  cpu_type : option string;
  l2_size : Z;
  with_uart : bool;
  with_timer : bool;
  submodules : list (string * submodule);
  wb_masters : list wishbone;
  sdram : option sdram_registration
}.

Definition empty_soc (resources : list string) : soc := {|
  platform := resources;
  soc_clk_freq := 0;
  cpu_type := None;
  l2_size := 0;
  with_uart := false;
  with_timer := false;
  submodules := [];
  wb_masters := [];
  sdram := None
|}.

(** *** A state and error monad for the constructor *)

Definition M (A : Type) : Type := soc -> result (A * soc).

Definition ret {A} (a : A) : M A := fun s => Ok (a, s).

Definition bind {A B} (c : M A) (k : A -> M B) : M B :=
  fun s =>
    match c s with
    | Ok (a, s') => k a s'
    | Err e => Err e
    end.

Definition raise {A} (e : error) : M A := fun _ => Err e.

Definition get : M soc := fun s => Ok (s, s).

Definition put (s : soc) : M unit := fun _ => Ok (tt, s).

Definition lift {A} (r : result A) : M A :=
  fun s => match r with Ok a => Ok (a, s) | Err e => Err e end.

Declare Scope soc_scope.
Delimit Scope soc_scope with soc.
Notation "x <- c ;; k" := (bind c (fun x => k))
  (at level 100, c at next level, right associativity) : soc_scope.
Notation "c ;;; k" := (bind c (fun _ => k))
  (at level 100, right associativity) : soc_scope.
Local Open Scope soc_scope.

Definition mem (x : string) (l : list string) : bool :=
  existsb (String.eqb x) l.

Definition remove (x : string) (l : list string) : list string :=
  List.filter (fun y => negb (String.eqb x y)) l.

(** Modelled from the spec: the platform object is created outside this
    file ([arty.Platform()]).  Each resource may be requested at most once;
    requesting a resource that is not (or no longer) available fails with a
    configuration error. *)
Definition request (name : string) : M pads :=
  s <- get ;;
  if mem name (platform s)
  then put {| platform := remove name (platform s);
              soc_clk_freq := soc_clk_freq s; cpu_type := cpu_type s;
              l2_size := l2_size s; with_uart := with_uart s;
              with_timer := with_timer s; submodules := submodules s;
              wb_masters := wb_masters s; sdram := sdram s |} ;;;
       ret (Pads name)
  else raise (ConstraintError name).

(** [self.submodules.<name> = m]. *)
Definition add_submodule (name : string) (m : submodule) : M unit :=
  s <- get ;;
  put {| platform := platform s;
         soc_clk_freq := soc_clk_freq s; cpu_type := cpu_type s;
         l2_size := l2_size s; with_uart := with_uart s;
         with_timer := with_timer s;
         submodules := submodules s ++ [(name, m)];
         wb_masters := wb_masters s; sdram := sdram s |}.

Definition find_submodule (name : string) (s : soc) : option submodule :=
  match List.find (fun nm => String.eqb name (fst nm)) (submodules s) with
  | Some nm => Some (snd nm)
  | None => None
  end.

(** Modelled from the spec: [add_cpu_or_bridge] belongs to the framework
    class [SoCSDRAM] and is not part of this file.  There is one slot for
    the agent that drives the bus; filling it twice fails. *)
Definition add_cpu_or_bridge (m : submodule) : M unit :=
  s <- get ;;
  match find_submodule "cpu_or_bridge" s with
  | Some _ => raise MasterError
  | None => add_submodule "cpu_or_bridge" m
  end.

(** Modelled from the spec: [add_wb_master] belongs to the framework class
    [SoCSDRAM] and is not part of this file.  Exactly one bus master is ever
    registered; registering a second fails. *)
Definition add_wb_master (w : wishbone) : M unit :=
  s <- get ;;
  match wb_masters s with
  | [] => put {| platform := platform s;
                 soc_clk_freq := soc_clk_freq s; cpu_type := cpu_type s;
                 l2_size := l2_size s; with_uart := with_uart s;
                 with_timer := with_timer s; submodules := submodules s;
                 wb_masters := [w]; sdram := sdram s |}
  | _ :: _ => raise MasterError
  end.

(** [self.cpu_or_bridge.wishbone]. *)
Definition cpu_or_bridge_wishbone : M wishbone :=
  s <- get ;;
  match find_submodule "cpu_or_bridge" s with
  | Some m => ret (wishbone_of m)
  | None => raise AssertionError
  end.

(** Modelled from the spec: the constructor of the framework class
    [SoCSDRAM] is not part of this file.  It records the configuration; a
    processor core is instantiated, and takes the bus master slot, only when
    a [cpu_type] is given. *)
Definition SoCSDRAM_init (clk_freq : Z) (cpu : option string) (l2 : Z)
    (uart timer : bool) : M unit :=
  s <- get ;;
  put {| platform := platform s;
         soc_clk_freq := clk_freq; cpu_type := cpu;
         l2_size := l2; with_uart := uart; with_timer := timer;
         submodules := submodules s;
         wb_masters := wb_masters s; sdram := sdram s |} ;;;
  match cpu with
  | Some t =>
      add_cpu_or_bridge (CPU t) ;;;
      w <- cpu_or_bridge_wishbone ;;
      add_wb_master w
  | None => ret tt
  end.

(** [self.register_sdram(phy, "minicon", geom_settings, timing_settings)]:
    the binding of the PHY to the resolved module parameters. *)
Definition register_sdram (phy_name ctrl : string) (g : SDRAM.geometry)
    (t : SDRAM.timing_settings) : M unit :=
  s <- get ;;
  put {| platform := platform s;
         soc_clk_freq := soc_clk_freq s; cpu_type := cpu_type s;
         l2_size := l2_size s; with_uart := with_uart s;
         with_timer := with_timer s; submodules := submodules s;
         wb_masters := wb_masters s;
         sdram := Some {| phy := phy_name; sdram_controller_type := ctrl;
                          reg_geom_settings := g; reg_timing_settings := t |} |}.

(** [_CRG(platform)]: the module claims the clock and the reset pad. *)
Definition CRG_init : M submodule :=
  _ <- request "clk100" ;;
  _ <- request "cpu_reset" ;;
  ret CRG_module.

(** [BaseSoC.__init__].  The source registers no analyzer: the line
    [self.submodules.analyzer = LiteScopeAnalyzer(analyzer_signals,
    depth=1024)] is commented out.  [with_analyzer = false] is the
    constructor as written; [with_analyzer = true] is the constructor with
    that line restored. *)
Definition BaseSoC_init (with_analyzer : bool) : M unit :=
  let clk_freq := 100 * 1000000 in
  SoCSDRAM_init clk_freq None 0 false false ;;;
  crg <- CRG_init ;;
  add_submodule "crg" crg ;;;
  add_submodule "dna" DNA ;;;
  add_submodule "xadc" XADC ;;;
  ddram <- request "ddram" ;;
  add_submodule "ddrphy" (A7DDRPHY ddram) ;;;
  s <- get ;;
  sdram_module <- lift (SDRAM.SDRAMModule_init SDRAM.MT41K128M16 (soc_clk_freq s) "1:4") ;;
  register_sdram "ddrphy" "minicon"
    (SDRAM.geom_settings sdram_module) (SDRAM.timing_settings_of sdram_module) ;;;
  serial <- request "serial" ;;
  add_cpu_or_bridge (UARTWishboneBridge serial clk_freq 115200) ;;;
  w <- cpu_or_bridge_wishbone ;;
  add_wb_master w ;;;
  if with_analyzer
  then add_submodule "analyzer" (LiteScopeAnalyzer analyzer_signals 1024)
  else ret tt.

(** Running the constructor on a platform with the given resources. *)
Definition BaseSoC (resources : list string) (with_analyzer : bool) : result soc :=
  match BaseSoC_init with_analyzer (empty_soc resources) with
  | Ok (_, s) => Ok s
  | Err e => Err e
  end.

(** *** What a composed SoC exposes *)

(** Signals handed to a registered capture engine. *)
Definition captured_signals (s : soc) : list dfi_signal :=
  flat_map (fun nm => match snd nm with
                      | LiteScopeAnalyzer sigs _ => sigs
                      | _ => []
                      end) (submodules s).

(** Modelled from the spec: the builder that lays out the CSR banks is not
    part of this file.  Every registered submodule that has an entry in the
    CSR map sits at that entry's offset; an entry without a registered
    submodule is a reserved, unused slot. *)
Definition csr_allocation (inherited : gmap string Z) (s : soc) : list (string * Z) :=
  omap (fun nm => match csr_map inherited !! fst nm with
                  | Some off => Some (fst nm, off)
                  | None => None
                  end) (submodules s).

Definition is_cpu (m : submodule) : bool :=
  match m with CPU _ => true | _ => false end.

Definition is_analyzer (m : submodule) : bool :=
  match m with LiteScopeAnalyzer _ _ => true | _ => false end.

(** The CSR slot the merged map holds for the analyzer, as the allocation
    a registered analyzer would take. *)
Definition analyzer_slot (inherited : gmap string Z) : list (string * Z) :=
  match csr_map inherited !! "analyzer" with
  | Some off => [("analyzer", off)]
  | None => []
  end.

(** The resources the constructor claims. *)
Definition required_resources : list string :=
  ["clk100"; "cpu_reset"; "ddram"; "serial"].

(** The submodules every run of the constructor registers, in order. *)
Definition base_submodules : list (string * submodule) :=
  [ ("crg", CRG_module); ("dna", DNA); ("xadc", XADC);
    ("ddrphy", A7DDRPHY (Pads "ddram"));
    ("cpu_or_bridge", UARTWishboneBridge (Pads "serial") (100 * 1000000) 115200) ].

(** An instance of a framework CSR map whose offsets lie below 16, and a
    platform offering more than the constructor needs; both serve to
    instantiate the statements below. *)
Definition sample_framework_csr_map : gmap string Z :=
  <["crg" := 0]> (<["uart_phy" := 1]> (<["uart" := 2]>
    (<["identifier_mem" := 3]> (<["timer0" := 4]> (<["sdram" := 8]> ∅))))).

Definition sample_platform : list string :=
  ["user_led"; "clk100"; "cpu_reset"; "serial"; "ddram"; "user_btn"].

(** The first resource, in the order the constructor requests them, that
    the platform does not offer. *)
Definition first_missing (resources : list string) : option string :=
  List.find (fun r => negb (mem r resources)) required_resources.

End SoC.

(** One step of symbolic execution of the constructor: reduce, but keep the
    resource tests and the SDRAM resolution folded so that they can be
    rewritten. *)
Ltac run_step :=
  cbn -[SoC.mem SoC.remove SDRAM.SDRAMModule_init Z.mul].

(* ===================================================================== *)
(** ** Properties of the clock and reset generation                       *)
(* ===================================================================== *)

Section CRG_properties.

Import CRG.

Lemma clock_domain_eqb_eq a b : clock_domain_eqb a b = true <-> a = b.
Proof. destruct a, b; simpl; split; intros H; try reflexivity; discriminate H. Qed.

(** The two reset-less domains have no reset synchronizer at all. *)
Lemma reset_less_no_synchronizer cd rho :
  reset_less cd = true -> cd_rst cd rho = None.
Proof. destruct cd; simpl; intros H; try discriminate H; reflexivity. Qed.

(** Every domain declared with a reset has a synchronizer in [specials]. *)
Lemma reset_bearing_has_synchronizer cd :
  reset_less cd = false ->
  exists e, In (AsyncResetSynchronizer cd e) specials /\
            async_reset_of specials cd = Some e.
Proof.
  destruct cd; simpl; intros H; try discriminate H.
  - exists (Or (Not (Sig pll_locked)) (Not (Sig rst))). split; [|reflexivity].
    do 5 right. left. reflexivity.
  - exists (Or (Not (Sig pll_locked)) (Sig rst)). split; [|reflexivity].
    do 6 right. left. reflexivity.
Qed.

(** The two reset requests in terms of the pad level: the system domain
    is reset while the pad is low, the calibration domain while it is
    high. *)
Lemma reset_requests_pad_level (rho : env) :
  cd_rst cd_sys rho = Some (negb (rho pll_locked) || negb (rho rst))
  /\ cd_rst cd_clk200 rho = Some (negb (rho pll_locked) || rho rst).
Proof. split; reflexivity. Qed.

(** C1: the system domain's reset is requested exactly when
    [(NOT lock_status) OR external_reset_request] holds and the clk200
    (calibration) domain's exactly when
    [(NOT lock_status) OR (NOT external_reset_request)] holds: the system
    domain couples to the request asserted, the calibration domain to the
    request de-asserted. *)
Theorem reset_gating (rho : env) :
  cd_rst cd_sys rho
  = Some (negb (lock_status rho) || external_reset_request rho)
  /\ cd_rst cd_clk200 rho
    = Some (negb (lock_status rho) || negb (external_reset_request rho)).
Proof.
  unfold lock_status, external_reset_request, cd_rst. simpl.
  rewrite negb_involutive. split; reflexivity.
Qed.

(** C4: at every time step at which the PLL does not report lock, every
    clock domain that has a reset sees it asserted. *)
Theorem reset_asserted_while_unlocked (trace : nat -> env) (t : nat) (cd : clock_domain) :
  reset_less cd = false ->
  trace t pll_locked = false ->
  cd_rst cd (trace t) = Some true.
Proof.
  intros Hcd Hlock. destruct cd; simpl in Hcd; try discriminate Hcd;
    unfold cd_rst; simpl; rewrite Hlock; reflexivity.
Qed.

Lemma reset_asserted_while_unlocked_witness :
  cd_rst cd_sys ((fun t => mk_env (5 <=? t)%nat true) 3%nat) = Some true.
Proof.
  apply (reset_asserted_while_unlocked (fun t => mk_env (5 <=? t)%nat true) 3 cd_sys);
    reflexivity.
Defined.

(** C5: from the 10 ns reference (100 MHz) the PLL runs its VCO at 1600 MHz,
    and with the dividers 16/4/4/8 and the phases 0/0/90/0 the four domains
    are sys at 100 MHz, sys4x at 400 MHz, sys4x_dqs at 400 MHz shifted by 90
    degrees and clk200 at 200 MHz. *)
Theorem clock_generation :
  ref_MHz pll = (100 # 1)%Q
  /\ vco_MHz pll = (1600 # 1)%Q
  /\ map (p_CLKOUT_DIVIDE pll) [CLKOUT0; CLKOUT1; CLKOUT2; CLKOUT3] = [16; 4; 4; 8]
  /\ map (clkout_phase pll) [CLKOUT0; CLKOUT1; CLKOUT2; CLKOUT3]
     = [(0 # 1)%Q; (0 # 1)%Q; (90 # 1)%Q; (0 # 1)%Q]
  /\ generated_domains specials specials
     = [ (cd_sys, ((100 # 1)%Q, (0 # 1)%Q));
         (cd_sys4x, ((400 # 1)%Q, (0 # 1)%Q));
         (cd_sys4x_dqs, ((400 # 1)%Q, (90 # 1)%Q));
         (cd_clk200, ((200 # 1)%Q, (0 # 1)%Q)) ].
Proof. repeat split; vm_compute; reflexivity. Qed.

(** *** The calibration countdown *)

Lemma wrap_small z : 0 <= z < 16 -> wrap z = z.
Proof. intros H. unfold wrap, reset_counter_width. apply Z.mod_small. lia. Qed.

Lemma sync_clk200_counting c b :
  0 < c <= 15 ->
  sync_clk200 {| reset_counter := c; ic_reset := b |}
  = {| reset_counter := c - 1; ic_reset := b |}.
Proof.
  intros H. unfold sync_clk200; simpl.
  destruct (Z.eqb_spec c 0) as [E|_]; [lia|]. simpl.
  rewrite wrap_small by lia. reflexivity.
Qed.

Lemma sync_clk200_done b :
  sync_clk200 {| reset_counter := 0; ic_reset := b |}
  = {| reset_counter := 0; ic_reset := false |}.
Proof. reflexivity. Qed.

(** Closed form of the run after the reset release. *)
Lemma run_closed_form (n : nat) :
  run n = {| reset_counter := Z.max 0 (15 - Z.of_nat n);
             ic_reset := (n <=? 15)%nat |}.
Proof.
  induction n as [|n IH]; [reflexivity|].
  simpl run. rewrite IH.
  destruct (Nat.leb_spec n 14) as [Hlt|Hge].
  - rewrite sync_clk200_counting by lia.
    f_equal; [lia|].
    destruct (Nat.leb_spec n 15); destruct (Nat.leb_spec (S n) 15); try reflexivity; lia.
  - replace (Z.max 0 (15 - Z.of_nat n)) with 0 by lia.
    rewrite sync_clk200_done.
    f_equal; [lia|].
    destruct (Nat.leb_spec (S n) 15); [lia|reflexivity].
Qed.

Lemma reachable_run s : reachable s <-> exists n, s = run n.
Proof.
  split.
  - induction 1 as [|s _ [n ->]]; [exists 0%nat | exists (S n)]; reflexivity.
  - intros [n ->]. induction n; [apply reach_reset | apply reach_tick; assumption].
Qed.

Lemma reachable_range s : reachable s -> 0 <= reset_counter s <= 15.
Proof.
  intros [n ->]%reachable_run. rewrite run_closed_form. cbn [reset_counter]. lia.
Qed.

(** With the domain's reset released on every edge, [run_with] is [run]. *)
Lemma run_with_released (n : nat) :
  run_with (repeat false n) regs_reset = run n.
Proof.
  unfold run_with. induction n as [|n IH]; [reflexivity|].
  change (repeat false (S n)) with (false :: repeat false n).
  rewrite repeat_cons, fold_left_app, IH. reflexivity.
Qed.

(** The counter stays within its four bits whatever the domain's reset
    does: a reset reloads 15, an edge out of reset counts down or holds. *)
Lemma run_with_range (rsts : list bool) (s : regs) :
  0 <= reset_counter s <= 15 ->
  0 <= reset_counter (run_with rsts s) <= 15.
Proof.
  unfold run_with. revert s.
  induction rsts as [|r rsts IH]; intros s Hs; [exact Hs|].
  simpl. apply IH. destruct r; simpl; [lia|].
  unfold sync_clk200. destruct (Z.eqb_spec (reset_counter s) 0); simpl; [lia|].
  rewrite wrap_small by lia. lia.
Qed.

(** C2, as stated, fails: after 15 edges the counter has reached zero but
    the calibration-active output is still true; it is not the case that the
    output is true for exactly the first 15 edges. *)
Lemma calibration_active_counterexample :
  reset_counter (run 15) = 0
  /\ idelayctrl_rst (run 15) = true
  /\ ~ (forall n : nat, idelayctrl_rst (run n) = true <-> (n < 15)%nat).
Proof.
  split; [reflexivity|]. split; [reflexivity|].
  intros H. specialize (H 15%nat). destruct H as [H _].
  specialize (H eq_refl). lia.
Qed.

(** C2 (amended): counted from the release of the domain's reset, the
    counter starts at 15 and loses exactly one per clk200 edge while it is
    nonzero, reaching 0 after 15 edges; the calibration-active output is true
    in the 16 states up to and including the one after the 15th edge, is
    cleared by the 16th edge, and is false ever after. *)
Theorem calibration_countdown (n : nat) :
  reset_counter (run 0) = 15
  /\ reset_counter (run n) = Z.max 0 (15 - Z.of_nat n)
  /\ (reset_counter (run n) <> 0 ->
      reset_counter (run (S n)) = reset_counter (run n) - 1
      /\ ic_reset (run (S n)) = ic_reset (run n))
  /\ (reset_counter (run n) = 0 ->
      reset_counter (run (S n)) = 0 /\ ic_reset (run (S n)) = false)
  /\ (idelayctrl_rst (run n) = true <-> (n < 16)%nat)
  /\ (forall m : nat, (16 <= m)%nat -> run m = {| reset_counter := 0; ic_reset := false |}).
Proof.
  unfold idelayctrl_rst.
  split; [reflexivity|].
  split; [rewrite run_closed_form; reflexivity|].
  split.
  { intros Hnz. rewrite !run_closed_form in *. cbn [reset_counter ic_reset] in *.
    split; [lia|].
    destruct (Nat.leb_spec (S n) 15); destruct (Nat.leb_spec n 15); try reflexivity; lia. }
  split.
  { intros Hz. rewrite !run_closed_form in *. cbn [reset_counter ic_reset] in *.
    split; [lia|]. destruct (Nat.leb_spec (S n) 15); [lia|reflexivity]. }
  split.
  { rewrite run_closed_form. cbn [ic_reset].
    destruct (Nat.leb_spec n 15) as [Hle|Hgt]; split; intros H;
      try reflexivity; try lia; discriminate H. }
  intros m Hm. rewrite run_closed_form. f_equal; [lia|].
  destruct (Nat.leb_spec m 15); [lia|reflexivity].
Qed.

(** C10: in every state the countdown can reach, the counter lies in
    [0, 15]; the next edge never raises it; and whenever the decrement
    executes the counter is at least 1, so the 4-bit subtraction yields
    exactly one less and never wraps to 15. *)
Theorem reset_counter_never_wraps (s : regs) :
  reachable s ->
  0 <= reset_counter s <= 15
  /\ reset_counter (sync_clk200 s) <= reset_counter s
  /\ 0 <= reset_counter (sync_clk200 s) <= 15
  /\ (reset_counter s <> 0 ->
      wrap (reset_counter s - 1) = reset_counter s - 1
      /\ reset_counter (sync_clk200 s) = reset_counter s - 1)
  /\ (reset_counter s = 0 -> reset_counter (sync_clk200 s) = 0).
Proof.
  intros Hr. pose proof (reachable_range s Hr) as Hrange.
  destruct s as [c b]; cbn [reset_counter] in *.
  destruct (Z.eq_dec c 0) as [->|NE].
  - rewrite sync_clk200_done; cbn [reset_counter].
    split; [lia|]. split; [lia|]. split; [lia|].
    split; [intros H; contradiction H; reflexivity | reflexivity].
  - rewrite sync_clk200_counting by lia; cbn [reset_counter].
    rewrite wrap_small by lia.
    split; [lia|]. split; [lia|]. split; [lia|].
    split; [intros _; split; reflexivity | intros H; contradiction].
Qed.

Lemma reset_counter_never_wraps_witness :
  0 <= reset_counter (run 3) <= 15
  /\ reset_counter (sync_clk200 (run 3)) <= reset_counter (run 3)
  /\ 0 <= reset_counter (sync_clk200 (run 3)) <= 15
  /\ (reset_counter (run 3) <> 0 ->
      wrap (reset_counter (run 3) - 1) = reset_counter (run 3) - 1
      /\ reset_counter (sync_clk200 (run 3)) = reset_counter (run 3) - 1)
  /\ (reset_counter (run 3) = 0 -> reset_counter (sync_clk200 (run 3)) = 0).
Proof.
  apply (reset_counter_never_wraps (run 3)).
  simpl. repeat apply reach_tick. apply reach_reset.
Defined.

End CRG_properties.

(* ===================================================================== *)
(** ** Properties of the SDRAM timing resolution                          *)
(* ===================================================================== *)

Section SDRAM_properties.

Import SDRAM.

Lemma is_power_of_two_spec (n : Z) :
  is_power_of_two n = true <-> power_of_two n.
Proof.
  unfold is_power_of_two, power_of_two. rewrite andb_true_iff, Z.leb_le, Z.eqb_eq.
  split.
  - intros [H1 H2]. split; [exact H1|]. exists (Z.log2 n). exact H2.
  - intros [H1 [k Hk]]. split; [exact H1|].
    destruct (Z.lt_ge_cases k 0) as [Hneg|Hpos].
    + rewrite Z.pow_neg_r in Hk by exact Hneg. lia.
    + rewrite Hk at 2. rewrite Z.log2_pow2 by exact Hpos. exact Hk.
Qed.

Lemma valid_geometry_spec (g : geometry) :
  valid_geometry g = true <->
  power_of_two (nbanks g) /\ power_of_two (nrows g) /\ power_of_two (ncols g).
Proof.
  unfold valid_geometry. rewrite !andb_true_iff, !is_power_of_two_spec. tauto.
Qed.

Lemma valid_timings_spec (t : timings_ns) :
  valid_timings t = true <-> Forall (fun x => (0 <= x)%Q) (timing_list t).
Proof.
  unfold valid_timings. rewrite forallb_forall, List.Forall_forall.
  split; intros H x Hx; apply Qle_bool_iff, H, Hx.
Qed.

Lemma negative_timing_invalid (t : timings_ns) :
  Exists (fun x => (x < 0)%Q) (timing_list t) -> valid_timings t = false.
Proof.
  intros Hex. destruct (valid_timings t) eqn:E; [|reflexivity].
  apply valid_timings_spec in E. apply List.Exists_exists in Hex.
  destruct Hex as [x [Hin Hneg]].
  rewrite List.Forall_forall in E. specialize (E x Hin).
  exfalso. exact (Qlt_not_le _ _ Hneg E).
Qed.

(** The resolution of one timing is the ceiling of the exact cycle count:
    the least integer not below it, at or above the floor, and equal to the
    floor only when the exact count is itself an integer. *)
Lemma ns_to_cycles_rounds_up (f : Z) (t : Q) :
  ns_to_cycles f t = Qceiling (exact_cycles f t)
  /\ rounded_up (exact_cycles f t) (ns_to_cycles f t)
  /\ Qfloor (exact_cycles f t) <= ns_to_cycles f t
  /\ (ns_to_cycles f t = Qfloor (exact_cycles f t) ->
      (exact_cycles f t == inject_Z (ns_to_cycles f t))%Q).
Proof.
  unfold ns_to_cycles, rounded_up. fold (exact_cycles f t).
  set (x := exact_cycles f t).
  split; [reflexivity|].
  split; [split; [apply Qle_ceiling | apply Qceiling_lt]|].
  split.
  - pose proof (Qle_floor_ceiling x) as H. rewrite <- Zle_Qle in H. exact H.
  - intros E. apply Qle_antisym; [apply Qle_ceiling|].
    rewrite E. apply Qfloor_le.
Qed.

(** The ceiling is determined by the rounding-up property. *)
Lemma rounded_up_unique (x : Q) (c : Z) :
  rounded_up x c -> c = Qceiling x.
Proof.
  intros [Hle Hlt].
  pose proof (Qle_ceiling x) as Cle. pose proof (Qceiling_lt x) as Clt.
  assert (H1 : (inject_Z (c - 1) < inject_Z (Qceiling x))%Q)
    by (eapply Qlt_le_trans; eassumption).
  assert (H2 : (inject_Z (Qceiling x - 1) < inject_Z c)%Q)
    by (eapply Qlt_le_trans; eassumption).
  rewrite <- Zlt_Qlt in H1, H2. lia.
Qed.

Lemma SDRAMModule_init_ok (c : module_class) (f : Z) (r : string) :
  valid_geometry (geom c) = true ->
  valid_timings (timings c) = true ->
  exists m, SDRAMModule_init c f r = Ok m
    /\ clk_freq m = f /\ rate m = r /\ geom_settings m = geom c
    /\ cycle_list (timing_settings_of m)
       = map (ns_to_cycles f) (timing_list (timings c)).
Proof.
  intros Hg Ht. unfold SDRAMModule_init. rewrite Hg, Ht. simpl.
  eexists. split; [reflexivity|]. repeat split.
Qed.

Lemma resolved_list_rounds_up (f : Z) (l : list Q) :
  Forall2
    (fun t c =>
       c = Qceiling (exact_cycles f t)
       /\ rounded_up (exact_cycles f t) c
       /\ Qfloor (exact_cycles f t) <= c
       /\ (c = Qfloor (exact_cycles f t) -> (exact_cycles f t == inject_Z c)%Q))
    l (map (ns_to_cycles f) l).
Proof.
  induction l as [|t l IH]; simpl; constructor.
  - apply ns_to_cycles_rounds_up.
  - exact IH.
Qed.

(** C3: for every geometry whose bank, row and column counts are powers of
    two (at least 1), resolving the device's timings at any clock frequency
    and burst ratio succeeds, and every resolved cycle count is the ceiling
    of the duration times the clock frequency: the least integer not below
    it, never less than the floor and equal to it only for an exact count. *)
Theorem timing_resolution_rounds_up (g : geometry) (f : Z) (r : string) :
  power_of_two (nbanks g) ->
  power_of_two (nrows g) ->
  power_of_two (ncols g) ->
  exists m,
    SDRAMModule_init (with_geometry MT41K128M16 g) f r = Ok m
    /\ geom_settings m = g
    /\ Forall2
         (fun t c =>
            c = Qceiling (exact_cycles f t)
            /\ rounded_up (exact_cycles f t) c
            /\ Qfloor (exact_cycles f t) <= c
            /\ (c = Qfloor (exact_cycles f t) -> (exact_cycles f t == inject_Z c)%Q))
         (timing_list (timings MT41K128M16))
         (cycle_list (timing_settings_of m)).
Proof.
  intros Hb Hr Hc.
  destruct (SDRAMModule_init_ok (with_geometry MT41K128M16 g) f r)
    as [m [Hm [_ [_ [Hg Hl]]]]].
  - apply valid_geometry_spec. simpl. auto.
  - reflexivity.
  - exists m. split; [exact Hm|]. split; [exact Hg|].
    rewrite Hl. apply resolved_list_rounds_up.
Qed.

Lemma timing_resolution_rounds_up_witness :
  exists m,
    SDRAMModule_init (with_geometry MT41K128M16 (geom MT41K128M16))
      (100 * 1000000) "1:4" = Ok m
    /\ geom_settings m = geom MT41K128M16
    /\ Forall2
         (fun t c =>
            c = Qceiling (exact_cycles (100 * 1000000) t)
            /\ rounded_up (exact_cycles (100 * 1000000) t) c
            /\ Qfloor (exact_cycles (100 * 1000000) t) <= c
            /\ (c = Qfloor (exact_cycles (100 * 1000000) t) ->
                (exact_cycles (100 * 1000000) t == inject_Z c)%Q))
         (timing_list (timings MT41K128M16))
         (cycle_list (timing_settings_of m)).
Proof.
  apply (timing_resolution_rounds_up (geom MT41K128M16) (100 * 1000000) "1:4").
  - split; [simpl; lia | exists 3; reflexivity].
  - split; [simpl; lia | exists 14; reflexivity].
  - split; [simpl; lia | exists 10; reflexivity].
Defined.

(** The module as the SoC builds it: 100 MHz, ratio 1:4. *)
Example MT41K128M16_at_100MHz :
  SDRAMModule_init MT41K128M16 (100 * 1000000) "1:4"
  = Ok {| clk_freq := 100000000; rate := "1:4";
          geom_settings := {| nbanks := 8; nrows := 16384; ncols := 1024 |};
          timing_settings_of :=
            {| c_tRP := 2; c_tRCD := 2; c_tWR := 2; c_tWTR := 1;
               c_tREFI := 782; c_tRFC := 16 |} |}.
Proof. vm_compute. reflexivity. Qed.

(** C8: a module class whose bank, row or column count is not a power of
    two, or one of whose timings is negative, is rejected by the
    constructor's assertion; no module object is returned. *)
Theorem invalid_module_rejected (c : module_class) (f : Z) (r : string) :
  ~ power_of_two (nbanks (geom c))
  \/ ~ power_of_two (nrows (geom c))
  \/ ~ power_of_two (ncols (geom c))
  \/ Exists (fun x => (x < 0)%Q) (timing_list (timings c)) ->
  SDRAMModule_init c f r = Err AssertionError.
Proof.
  intros H. unfold SDRAMModule_init.
  destruct (valid_geometry (geom c)) eqn:Eg; [|reflexivity].
  destruct (valid_timings (timings c)) eqn:Et; [|reflexivity].
  exfalso. apply valid_geometry_spec in Eg. destruct Eg as [Hb [Hr Hc]].
  destruct H as [H|[H|[H|H]]]; [exact (H Hb) | exact (H Hr) | exact (H Hc) |].
  apply negative_timing_invalid in H. congruence.
Qed.

Lemma invalid_module_rejected_witness :
  SDRAMModule_init
    (with_geometry MT41K128M16 {| nbanks := 6; nrows := 16384; ncols := 1024 |})
    (100 * 1000000) "1:4"
  = Err AssertionError.
Proof.
  apply invalid_module_rejected.
  left. rewrite <- is_power_of_two_spec. vm_compute. discriminate.
Defined.

(** The same for a negative timing with a valid geometry. *)
Example negative_timing_rejected :
  SDRAMModule_init
    {| memtype := "DDR3"; geom := geom MT41K128M16;
       timings := {| tRP := (-1375) # 100; tRCD := 1375 # 100; tWR := 15 # 1;
                     tWTR := 8 # 1; tREFI := 15625 # 2; tRFC := 160 # 1 |} |}
    (100 * 1000000) "1:4"
  = Err AssertionError.
Proof. vm_compute. reflexivity. Qed.

End SDRAM_properties.

(* ===================================================================== *)
(** ** Properties of the SoC composition                                  *)
(* ===================================================================== *)

Section SoC_properties.

Import SoC.

(** *** The CSR map *)

Lemma explicit_csr_map_lookup (n : string) (o : Z) :
  explicit_csr_map !! n = Some o <->
  (n = "ddrphy" /\ o = 17) \/ (n = "dna" /\ o = 18) \/
  (n = "xadc" /\ o = 19) \/ (n = "analyzer" /\ o = 20).
Proof.
  unfold explicit_csr_map.
  rewrite !lookup_insert_Some, lookup_empty.
  split.
  - intros [[<- <-]|[_ [[<- <-]|[_ [[<- <-]|[_ [[<- <-]|[_ H]]]]]]]];
      auto; discriminate H.
  - intros [[-> ->]|[[-> ->]|[[-> ->]|[-> ->]]]].
    + left; auto.
    + right; split; [discriminate|]. left; auto.
    + right; split; [discriminate|]. right; split; [discriminate|]. left; auto.
    + right; split; [discriminate|]. right; split; [discriminate|].
      right; split; [discriminate|]. left; auto.
Qed.

Lemma explicit_offsets_range (n : string) (o : Z) :
  explicit_csr_map !! n = Some o -> 17 <= o <= 20.
Proof.
  intros H. apply explicit_csr_map_lookup in H.
  destruct H as [[_ ->]|[[_ ->]|[[_ ->]|[_ ->]]]]; lia.
Qed.

Lemma explicit_offsets_injective (n1 n2 : string) (o : Z) :
  explicit_csr_map !! n1 = Some o -> explicit_csr_map !! n2 = Some o -> n1 = n2.
Proof.
  intros H1 H2. apply explicit_csr_map_lookup in H1, H2.
  destruct H1 as [[-> ->]|[[-> ->]|[[-> ->]|[-> ->]]]];
    destruct H2 as [[-> E]|[[-> E]|[[-> E]|[-> E]]]]; try reflexivity; discriminate E.
Qed.

(** [dict.update]: a key of the framework map keeps the framework's offset,
    any other key keeps the explicit one. *)
Lemma csr_map_lookup (inherited : gmap string Z) (n : string) (o : Z) :
  csr_map inherited !! n = Some o <->
  inherited !! n = Some o \/ (inherited !! n = None /\ explicit_csr_map !! n = Some o).
Proof. unfold csr_map. apply lookup_union_Some_raw. Qed.




(** *** Running the constructor *)

Lemma mem_In (x : string) (l : list string) : mem x l = true <-> In x l.
Proof.
  unfold mem. rewrite existsb_exists. split.
  - intros [y [Hy E]]. apply String.eqb_eq in E. subst. exact Hy.
  - intros H. exists x. split; [exact H | apply String.eqb_refl].
Qed.

Lemma mem_remove_ne (x y : string) (l : list string) :
  x <> y -> mem x (remove y l) = mem x l.
Proof.
  intros Hne. unfold mem, remove. induction l as [|z l IH]; [reflexivity|].
  simpl. destruct (String.eqb_spec y z) as [->|Hyz]; simpl.
  - rewrite IH. destruct (String.eqb_spec x z); [congruence|reflexivity].
  - rewrite IH. reflexivity.
Qed.

Lemma mem_remove_eq (x : string) (l : list string) : mem x (remove x l) = false.
Proof.
  unfold mem, remove. induction l as [|z l IH]; [reflexivity|].
  simpl. destruct (String.eqb_spec x z) as [->|Hxz]; simpl; [exact IH|].
  rewrite IH. destruct (String.eqb_spec x z); [contradiction|reflexivity].
Qed.

(** A resource can be claimed once; the second request fails and leaves the
    first binding as it was. *)
Lemma request_twice (name : string) (s : soc) :
  mem name (platform s) = true ->
  exists s', request name s = Ok (Pads name, s')
    /\ request name s' = Err (ConstraintError name).
Proof.
  intros H. unfold request, bind, get, put, ret, raise. rewrite H. simpl.
  eexists. split; [reflexivity|]. simpl. rewrite mem_remove_eq. reflexivity.
Qed.

(** The SoC object the constructor returns on a platform that offers the
    four resources it claims. *)
Lemma BaseSoC_result (resources : list string) (with_analyzer : bool) :
  (forall r, In r required_resources -> In r resources) ->
  BaseSoC resources with_analyzer
  = Ok {| platform :=
            remove "serial" (remove "ddram" (remove "cpu_reset" (remove "clk100" resources)));
          soc_clk_freq := 100 * 1000000;
          cpu_type := None;
          l2_size := 0;
          with_uart := false;
          with_timer := false;
          submodules :=
            base_submodules ++
            (if with_analyzer
             then [("analyzer", LiteScopeAnalyzer analyzer_signals 1024)]
             else []);
          wb_masters :=
            [wishbone_of (UARTWishboneBridge (Pads "serial") (100 * 1000000) 115200)];
          sdram :=
            Some {| phy := "ddrphy"; sdram_controller_type := "minicon";
                    reg_geom_settings := SDRAM.geom SDRAM.MT41K128M16;
                    reg_timing_settings :=
                      {| SDRAM.c_tRP := 2; SDRAM.c_tRCD := 2; SDRAM.c_tWR := 2;
                         SDRAM.c_tWTR := 1; SDRAM.c_tREFI := 782;
                         SDRAM.c_tRFC := 16 |} |} |}.
Proof.
  intros Hres.
  assert (H1 : mem "clk100" resources = true)
    by (apply mem_In, Hres; simpl; auto).
  assert (H2 : mem "cpu_reset" resources = true)
    by (apply mem_In, Hres; simpl; auto).
  assert (H3 : mem "ddram" resources = true)
    by (apply mem_In, Hres; simpl; auto).
  assert (H4 : mem "serial" resources = true)
    by (apply mem_In, Hres; simpl; auto 6).
  unfold BaseSoC, BaseSoC_init, SoCSDRAM_init, CRG_init, request, add_submodule,
    add_cpu_or_bridge, cpu_or_bridge_wishbone, add_wb_master, register_sdram,
    bind, get, put, ret, lift, raise, empty_soc.
  run_step. rewrite H1. run_step.
  rewrite mem_remove_ne, H2 by discriminate. run_step.
  rewrite !mem_remove_ne, H3 by discriminate. run_step.
  rewrite MT41K128M16_at_100MHz. run_step.
  rewrite !mem_remove_ne, H4 by discriminate. run_step.
  destruct with_analyzer; reflexivity.
Qed.

Lemma sample_platform_sufficient :
  forall r, In r required_resources -> In r sample_platform.
Proof.
  intros r H. simpl in H.
  destruct H as [<-|[<-|[<-|[<-|[]]]]]; simpl; auto 8.
Qed.

(** C7: on a platform offering the four resources, the constructor
    succeeds and leaves exactly one bus master, the Wishbone interface of the
    UART bridge; the SoC has no CPU type and no CPU submodule; and any
    further master registration on the result fails. *)
Theorem single_bus_master (resources : list string) (with_analyzer : bool) :
  (forall r, In r required_resources -> In r resources) ->
  exists s,
    BaseSoC resources with_analyzer = Ok s
    /\ wb_masters s
       = [wishbone_of (UARTWishboneBridge (Pads "serial") (100 * 1000000) 115200)]
    /\ find_submodule "cpu_or_bridge" s
       = Some (UARTWishboneBridge (Pads "serial") (100 * 1000000) 115200)
    /\ cpu_type s = None
    /\ Forall (fun nm => is_cpu (snd nm) = false) (submodules s)
    /\ (forall w, add_wb_master w s = Err MasterError)
    /\ (forall m, add_cpu_or_bridge m s = Err MasterError).
Proof.
  intros Hres. eexists. split; [apply BaseSoC_result; exact Hres|].
  cbn [wb_masters cpu_type submodules].
  split; [reflexivity|].
  split; [destruct with_analyzer; reflexivity|].
  split; [reflexivity|].
  split.
  { apply List.Forall_forall. intros nm Hin. apply in_app_or in Hin.
    destruct Hin as [Hin|Hin].
    - simpl in Hin. destruct Hin as [<-|[<-|[<-|[<-|[<-|[]]]]]]; reflexivity.
    - destruct with_analyzer; simpl in Hin; [destruct Hin as [<-|[]]; reflexivity | destruct Hin]. }
  split.
  - intros w. reflexivity.
  - intros m. destruct with_analyzer; reflexivity.
Qed.

Lemma single_bus_master_witness :
  exists s,
    BaseSoC sample_platform false = Ok s
    /\ length (wb_masters s) = 1%nat
    /\ cpu_type s = None.
Proof.
  destruct (single_bus_master sample_platform false sample_platform_sufficient)
    as [s [Hs [Hm [_ [Hc _]]]]].
  exists s. split; [exact Hs|]. split; [rewrite Hm; reflexivity | exact Hc].
Defined.

(** *** The debug tap *)

Lemma csr_allocation_names (inherited : gmap string Z) (s : soc) (n : string) (off : Z) :
  In (n, off) (csr_allocation inherited s) ->
  exists m, In (n, m) (submodules s).
Proof.
  unfold csr_allocation. rewrite <- list_elem_of_In, list_elem_of_omap.
  intros [[n' m] [Hin Hf]]. simpl in Hf.
  destruct (csr_map inherited !! n') eqn:E; [|discriminate Hf].
  injection Hf as <- <-. exists m. apply list_elem_of_In. exact Hin.
Qed.

Lemma analyzer_signals_length : length analyzer_signals = 30%nat.
Proof. reflexivity. Qed.

(** C9: with the analyzer line left out (the constructor as written) no
    capture engine is registered, no signal is captured, and the CSR
    allocation has no entry for the analyzer although offset 20 stays
    reserved for it in the map; the SoC built with the line restored is the
    same SoC with the analyzer submodule appended, nothing else differing. *)
Theorem debug_tap_disabled (resources : list string) (inherited : gmap string Z) :
  (forall r, In r required_resources -> In r resources) ->
  exists s_off s_on,
    BaseSoC resources false = Ok s_off
    /\ BaseSoC resources true = Ok s_on
    /\ find_submodule "analyzer" s_off = None
    /\ Forall (fun nm => is_analyzer (snd nm) = false) (submodules s_off)
    /\ captured_signals s_off = []
    /\ explicit_csr_map !! "analyzer" = Some 20
    /\ (forall off, ~ In ("analyzer", off) (csr_allocation inherited s_off))
    /\ s_on = {| platform := platform s_off;
                 soc_clk_freq := soc_clk_freq s_off;
                 cpu_type := cpu_type s_off;
                 l2_size := l2_size s_off;
                 with_uart := with_uart s_off;
                 with_timer := with_timer s_off;
                 submodules :=
                   submodules s_off
                   ++ [("analyzer", LiteScopeAnalyzer analyzer_signals 1024)];
                 wb_masters := wb_masters s_off;
                 sdram := sdram s_off |}
    /\ captured_signals s_on = analyzer_signals
    /\ csr_allocation inherited s_on
       = csr_allocation inherited s_off ++ analyzer_slot inherited.
Proof.
  intros Hres. do 2 eexists.
  split; [apply BaseSoC_result; exact Hres|].
  split; [apply BaseSoC_result; exact Hres|].
  cbn [platform soc_clk_freq cpu_type l2_size with_uart with_timer
       submodules wb_masters sdram].
  rewrite app_nil_r.
  split; [reflexivity|].
  split.
  { apply List.Forall_forall. intros nm Hin. simpl in Hin.
    destruct Hin as [<-|[<-|[<-|[<-|[<-|[]]]]]]; reflexivity. }
  split; [reflexivity|].
  split; [reflexivity|].
  split.
  { intros off Hin. apply csr_allocation_names in Hin. destruct Hin as [m Hin].
    cbn [submodules] in Hin. rewrite ?app_nil_r in Hin. simpl in Hin.
    destruct Hin as [E|[E|[E|[E|[E|[]]]]]]; discriminate E. }
  split; [reflexivity|].
  split; [reflexivity|].
  unfold csr_allocation, analyzer_slot. cbn [submodules].
  rewrite ?app_nil_r, omap_app. f_equal.
  simpl. destruct (csr_map inherited !! "analyzer"); reflexivity.
Qed.

Lemma debug_tap_disabled_witness :
  exists s_off,
    BaseSoC sample_platform false = Ok s_off
    /\ captured_signals s_off = []
    /\ find_submodule "analyzer" s_off = None.
Proof.
  destruct (debug_tap_disabled sample_platform sample_framework_csr_map
              sample_platform_sufficient)
    as [s_off [s_on [Hoff [_ [Hfind [_ [Hcap _]]]]]]].
  exists s_off. split; [exact Hoff|]. split; [exact Hcap | exact Hfind].
Defined.

End SoC_properties.

(* ===================================================================== *)
(** ** The CRG under arbitrary reset activity                             *)
(* ===================================================================== *)

Section CRG_reset_activity.

Import CRG.

Lemma run_with_snoc (rsts : list bool) (r : bool) (s : regs) :
  run_with (rsts ++ [r]) s = clk200_tick r (run_with rsts s).
Proof. unfold run_with. rewrite fold_left_app. reflexivity. Qed.

Lemma run_with_app (a b : list bool) (s : regs) :
  run_with (a ++ b) s = run_with b (run_with a s).
Proof. unfold run_with. apply fold_left_app. Qed.

Lemma run_with_released_from (k : nat) (s : regs) :
  run_with (repeat false k) s = Nat.iter k sync_clk200 s.
Proof.
  induction k as [|k IH]; [reflexivity|].
  change (repeat false (S k)) with (false :: repeat false k).
  rewrite repeat_cons, run_with_snoc, IH. reflexivity.
Qed.

Lemma run_iter (k : nat) : run k = Nat.iter k sync_clk200 regs_reset.
Proof. induction k as [|k IH]; [reflexivity|]. simpl. rewrite IH. reflexivity. Qed.

(** X1: whatever the domain's reset does, edge after edge, the counter
    stays within [0, 15] and the IDELAYCTRL reset is only ever low with the
    counter at zero. *)
Theorem countdown_invariant (rsts : list bool) :
  0 <= reset_counter (run_with rsts regs_reset) <= 15
  /\ (idelayctrl_rst (run_with rsts regs_reset) = false ->
      reset_counter (run_with rsts regs_reset) = 0)
  /\ (reset_counter (run_with rsts regs_reset) <> 0 ->
      idelayctrl_rst (run_with rsts regs_reset) = true).
Proof.
  unfold idelayctrl_rst.
  assert (Inv : 0 <= reset_counter (run_with rsts regs_reset) <= 15
                /\ (ic_reset (run_with rsts regs_reset) = false ->
                    reset_counter (run_with rsts regs_reset) = 0)).
  { induction rsts as [|r rsts IH] using rev_ind.
    - simpl. split; [lia | discriminate].
    - rewrite run_with_snoc. destruct r; simpl.
      + split; [lia | discriminate].
      + destruct (run_with rsts regs_reset) as [c b]. simpl in IH.
        destruct IH as [Hc Hb].
        destruct (Z.eq_dec c 0) as [->|NE].
        * rewrite sync_clk200_done. simpl. split; [lia | reflexivity].
        * rewrite sync_clk200_counting by lia. simpl. split; [lia|].
          intros ->. specialize (Hb eq_refl). lia. }
  destruct Inv as [Hc Hb]. split; [exact Hc|]. split; [exact Hb|].
  intros Hnz. destruct (ic_reset (run_with rsts regs_reset)); [reflexivity|].
  exfalso. apply Hnz, Hb. reflexivity.
Qed.

(** X2: an edge with the domain's reset asserted restarts the countdown
    from any state: after that edge and [k] further edges out of reset the
    registers are those of a fresh run of length [k], so the IDELAYCTRL reset
    is high exactly while fewer than 16 edges have passed since the domain's
    reset was last asserted. *)
Theorem countdown_restarts_on_reset (pre : list bool) (k : nat) (s : regs) :
  run_with (pre ++ true :: repeat false k) s = run k
  /\ reset_counter (run_with (pre ++ true :: repeat false k) s)
     = Z.max 0 (15 - Z.of_nat k)
  /\ (idelayctrl_rst (run_with (pre ++ true :: repeat false k) s) = true
      <-> (k < 16)%nat).
Proof.
  assert (E : run_with (pre ++ true :: repeat false k) s = run k).
  { rewrite run_with_app.
    change (true :: repeat false k) with ([true] ++ repeat false k).
    rewrite run_with_app, run_with_released_from, run_iter. reflexivity. }
  rewrite E, run_closed_form. unfold idelayctrl_rst. cbn [reset_counter ic_reset].
  split; [reflexivity|]. split; [reflexivity|].
  destruct (Nat.leb_spec k 15) as [Hle|Hgt]; split; intros H;
    try reflexivity; try lia; discriminate H.
Qed.

(** X3: the reset requests of the system and the calibration domain are
    never both released: for all input levels at least one of the two is
    asserted, and both are asserted exactly when the PLL is not locked. *)
Theorem sys_clk200_never_both_released (rho : env) :
  ~ (cd_rst cd_sys rho = Some false /\ cd_rst cd_clk200 rho = Some false)
  /\ (cd_rst cd_sys rho = Some false -> cd_rst cd_clk200 rho = Some true)
  /\ (cd_rst cd_clk200 rho = Some false -> cd_rst cd_sys rho = Some true)
  /\ (cd_rst cd_sys rho = Some true /\ cd_rst cd_clk200 rho = Some true
      <-> rho pll_locked = false).
Proof.
  unfold cd_rst. simpl.
  destruct (rho pll_locked), (rho rst); simpl; intuition congruence.
Qed.

Lemma sys_clk200_exclusive (rho : env) :
  cd_rst cd_sys rho = Some false -> cd_rst cd_clk200 rho = Some true.
Proof.
  unfold cd_rst. simpl. destruct (rho pll_locked), (rho rst); simpl;
    intros H; try reflexivity; discriminate H.
Qed.

Lemma run_with_all_asserted (drs : list bool) (s : regs) :
  Forall (fun dr => dr = true) drs -> drs <> [] ->
  run_with drs s = regs_reset.
Proof.
  intros Hall Hne. destruct drs as [|d drs] using rev_ind; [contradiction|].
  rewrite run_with_snoc. apply List.Forall_app in Hall. destruct Hall as [_ Hd].
  inversion Hd as [|? ? Hd' _]; subst. reflexivity.
Qed.

(** X4: as long as the system domain's reset request is released at every
    clk200 edge, the calibration domain's request is asserted at every edge;
    with a synchronizer that asserts the domain's reset whenever it is
    requested, the countdown registers then sit at their reset values and the
    IDELAYCTRL reset is never released. *)
Theorem calibration_held_while_sys_released
    (trace : list env) (drs : list bool) (s : regs) :
  Forall2 (fun rho dr => cd_rst cd_clk200 rho = Some true -> dr = true) trace drs ->
  Forall (fun rho => cd_rst cd_sys rho = Some false) trace ->
  trace <> [] ->
  Forall (fun rho => cd_rst cd_clk200 rho = Some true) trace
  /\ run_with drs s = regs_reset
  /\ idelayctrl_rst (run_with drs s) = true.
Proof.
  intros Hsync Hsys Hne.
  assert (Hclk : Forall (fun rho => cd_rst cd_clk200 rho = Some true) trace).
  { eapply List.Forall_impl; [|exact Hsys]. intros rho H.
    apply (sys_clk200_exclusive rho). exact H. }
  assert (Hdrs : Forall (fun dr => dr = true) drs /\ drs <> []).
  { clear Hsys. induction Hsync as [|rho dr trace drs Hd Hrest IH].
    - contradiction.
    - inversion Hclk as [|? ? Hrho Hclk']; subst.
      split; [|discriminate]. constructor; [exact (Hd Hrho)|].
      destruct trace as [|rho' trace'].
      + inversion Hrest; subst. constructor.
      + apply IH; [discriminate | exact Hclk']. }
  destruct Hdrs as [Hall Hnonempty].
  split; [exact Hclk|].
  rewrite (run_with_all_asserted drs s Hall Hnonempty).
  split; reflexivity.
Qed.

Lemma calibration_held_while_sys_released_witness :
  run_with [true; true] {| reset_counter := 3; ic_reset := true |} = regs_reset.
Proof.
  destruct (calibration_held_while_sys_released
              [mk_env true true; mk_env true true] [true; true]
              {| reset_counter := 3; ic_reset := true |}) as [_ [H _]].
  - repeat constructor.
  - repeat constructor.
  - discriminate.
  - exact H.
Defined.

End CRG_reset_activity.

(* ===================================================================== *)
(** ** The merged CSR map for an arbitrary framework map                  *)
(* ===================================================================== *)

Section CSR_map_merge.

Import SoC.

(** X5: in the merged map every name the framework defines keeps the
    framework's offset, also when it is one of ddrphy, dna, xadc and
    analyzer; each of these four names always has an entry, and it carries
    its explicit offset exactly when the framework does not define the name
    differently; a name defined on neither side has no entry. *)
Theorem csr_map_update_semantics (inherited : gmap string Z) :
  (forall n o, inherited !! n = Some o -> csr_map inherited !! n = Some o)
  /\ (forall n o, explicit_csr_map !! n = Some o ->
        is_Some (csr_map inherited !! n)
        /\ (csr_map inherited !! n = Some o
            <-> inherited !! n = None \/ inherited !! n = Some o))
  /\ (forall n, inherited !! n = None -> explicit_csr_map !! n = None ->
        csr_map inherited !! n = None)
  /\ dom (csr_map inherited) = dom inherited ∪ dom explicit_csr_map.
Proof.
  split.
  { intros n o H. apply csr_map_lookup. left. exact H. }
  split.
  { intros n o He. split.
    - destruct (inherited !! n) as [o'|] eqn:Ei.
      + exists o'. apply csr_map_lookup. left. exact Ei.
      + exists o. apply csr_map_lookup. right. split; trivial.
    - rewrite csr_map_lookup. split.
      + intros [Hi|[Hn _]]; [right | left]; assumption.
      + intros [Hn|Hi]; [right; split; assumption | left; exact Hi]. }
  split.
  { intros n Hi He. unfold csr_map. apply lookup_union_None. split; assumption. }
  unfold csr_map. apply dom_union_L.
Qed.

(** The framework's entry shadows the explicit one. *)
Example csr_map_override :
  csr_map (<["ddrphy" := 3]> ∅) !! "ddrphy" = Some 3.
Proof. vm_compute. reflexivity. Qed.

(** X6: if no two names of the framework map share an offset and none of
    its offsets lies in 17..20, then no two names of the merged map share an
    offset. *)
Theorem csr_map_injective (inherited : gmap string Z) :
  (forall n1 n2 o, inherited !! n1 = Some o -> inherited !! n2 = Some o -> n1 = n2) ->
  (forall n o, inherited !! n = Some o -> o < 17 \/ 20 < o) ->
  forall n1 n2 o,
    csr_map inherited !! n1 = Some o -> csr_map inherited !! n2 = Some o -> n1 = n2.
Proof.
  intros Hinj Hout n1 n2 o H1 H2.
  apply csr_map_lookup in H1, H2.
  destruct H1 as [I1|[_ E1]], H2 as [I2|[_ E2]].
  - eapply Hinj; eassumption.
  - apply Hout in I1. apply explicit_offsets_range in E2. lia.
  - apply Hout in I2. apply explicit_offsets_range in E1. lia.
  - eapply explicit_offsets_injective; eassumption.
Qed.

Lemma sample_framework_csr_map_lookup (n : string) (o : Z) :
  sample_framework_csr_map !! n = Some o ->
  (n = "crg" /\ o = 0) \/ (n = "uart_phy" /\ o = 1) \/ (n = "uart" /\ o = 2)
  \/ (n = "identifier_mem" /\ o = 3) \/ (n = "timer0" /\ o = 4)
  \/ (n = "sdram" /\ o = 8).
Proof.
  unfold sample_framework_csr_map.
  rewrite !lookup_insert_Some, lookup_empty.
  intros [[<- <-]|[_ [[<- <-]|[_ [[<- <-]|[_ [[<- <-]|[_ [[<- <-]|[_ [[<- <-]|[_ H]]]]]]]]]]]];
    auto 10; discriminate H.
Qed.

Lemma csr_map_injective_witness :
  csr_map sample_framework_csr_map !! "uart" = Some 2
  /\ ("uart" : string) = "uart".
Proof.
  split; [reflexivity|].
  apply (csr_map_injective sample_framework_csr_map) with (o := 2).
  - intros n1 n2 o H1 H2.
    apply sample_framework_csr_map_lookup in H1, H2.
    destruct H1 as [[-> ->]|[[-> ->]|[[-> ->]|[[-> ->]|[[-> ->]|[-> ->]]]]]];
      destruct H2 as [[-> E]|[[-> E]|[[-> E]|[[-> E]|[[-> E]|[-> E]]]]]];
      try reflexivity; discriminate E.
  - intros n o H. apply sample_framework_csr_map_lookup in H.
    destruct H as [[_ ->]|[[_ ->]|[[_ ->]|[[_ ->]|[[_ ->]|[_ ->]]]]]]; lia.
  - reflexivity.
  - reflexivity.
Defined.

End CSR_map_merge.

(* ===================================================================== *)
(** ** The constructor on an arbitrary platform                           *)
(* ===================================================================== *)

Section BaseSoC_platform.

Import SoC.

Ltac unfold_constructor :=
  unfold BaseSoC, BaseSoC_init, SoCSDRAM_init, CRG_init, request, add_submodule,
    add_cpu_or_bridge, cpu_or_bridge_wishbone, add_wb_master, register_sdram,
    bind, get, put, ret, lift, raise, empty_soc.

(** The constructor stops at the first request the platform cannot serve. *)
Lemma BaseSoC_missing (resources : list string) (with_analyzer : bool) (r : string) :
  first_missing resources = Some r ->
  BaseSoC resources with_analyzer = Err (ConstraintError r).
Proof.
  unfold first_missing, required_resources. simpl List.find.
  destruct (mem "clk100" resources) eqn:H1; simpl negb; cbv iota;
    [|intros [= <-]; unfold_constructor; run_step; rewrite H1; reflexivity].
  destruct (mem "cpu_reset" resources) eqn:H2; simpl negb; cbv iota;
    [|intros [= <-]; unfold_constructor; run_step; rewrite H1; run_step;
      rewrite mem_remove_ne, H2 by discriminate; reflexivity].
  destruct (mem "ddram" resources) eqn:H3; simpl negb; cbv iota;
    [|intros [= <-]; unfold_constructor; run_step; rewrite H1; run_step;
      rewrite mem_remove_ne, H2 by discriminate; run_step;
      rewrite !mem_remove_ne, H3 by discriminate; reflexivity].
  destruct (mem "serial" resources) eqn:H4; simpl negb; cbv iota;
    [intros H; discriminate H|].
  intros [= <-]. unfold_constructor. run_step. rewrite H1. run_step.
  rewrite mem_remove_ne, H2 by discriminate. run_step.
  rewrite !mem_remove_ne, H3 by discriminate. run_step.
  rewrite MT41K128M16_at_100MHz. run_step.
  rewrite !mem_remove_ne, H4 by discriminate. reflexivity.
Qed.

Lemma first_missing_None (resources : list string) :
  first_missing resources = None <->
  (forall r, In r required_resources -> In r resources).
Proof.
  unfold first_missing. split.
  - intros H r Hr. apply mem_In.
    pose proof (List.find_none _ _ H r Hr) as Hm. simpl in Hm.
    destruct (mem r resources); [reflexivity | discriminate Hm].
  - intros H. destruct (List.find _ required_resources) as [r|] eqn:E; [|reflexivity].
    apply List.find_some in E. destruct E as [Hr Hm].
    apply H, mem_In in Hr. rewrite Hr in Hm. discriminate Hm.
Qed.

Lemma first_missing_Some (resources : list string) (r : string) :
  first_missing resources = Some r ->
  In r required_resources /\ ~ In r resources.
Proof.
  unfold first_missing. intros E. apply List.find_some in E.
  destruct E as [Hr Hm]. split; [exact Hr|].
  intros Hin. apply mem_In in Hin. rewrite Hin in Hm. discriminate Hm.
Qed.

(** X7: the constructor succeeds exactly on the platforms that offer
    clk100, cpu_reset, ddram and serial; on any other platform it fails with
    the configuration error of the first of these, in that order, that is
    missing, whether or not the analyzer line is present. *)
Theorem BaseSoC_succeeds_iff_resources (resources : list string) (with_analyzer : bool) :
  ((exists s, BaseSoC resources with_analyzer = Ok s)
   <-> (forall r, In r required_resources -> In r resources))
  /\ (forall r, first_missing resources = Some r ->
        In r required_resources /\ ~ In r resources
        /\ BaseSoC resources with_analyzer = Err (ConstraintError r))
  /\ ((forall s, BaseSoC resources with_analyzer <> Ok s)
      -> exists r, first_missing resources = Some r).
Proof.
  split.
  { split.
    - intros [s Hs]. apply first_missing_None.
      destruct (first_missing resources) as [r|] eqn:E; [|reflexivity].
      rewrite (BaseSoC_missing _ _ _ E) in Hs. discriminate Hs.
    - intros H. eexists. apply BaseSoC_result. exact H. }
  split.
  { intros r E. destruct (first_missing_Some _ _ E) as [Hr Hn].
    split; [exact Hr|]. split; [exact Hn|]. apply BaseSoC_missing. exact E. }
  intros Hfail. destruct (first_missing resources) as [r|] eqn:E; [eauto|].
  exfalso. pose proof (proj1 (first_missing_None resources) E) as Hreq.
  eapply Hfail. apply BaseSoC_result. exact Hreq.
Qed.

(** X8: a successful run takes exactly the four resources from the
    platform and leaves every other resource as it found it; a second run on
    what is left fails at its first request, that of clk100. *)
Theorem BaseSoC_claims_only_its_resources
    (resources : list string) (with_analyzer : bool) (s : soc) :
  BaseSoC resources with_analyzer = Ok s ->
  (forall r, In r required_resources -> mem r (platform s) = false)
  /\ (forall r, ~ In r required_resources ->
        mem r (platform s) = mem r resources)
  /\ (forall b, BaseSoC (platform s) b = Err (ConstraintError "clk100")).
Proof.
  intros Hs.
  assert (Hreq : forall r, In r required_resources -> In r resources).
  { apply first_missing_None.
    destruct (first_missing resources) as [r|] eqn:E; [|reflexivity].
    rewrite (BaseSoC_missing _ _ _ E) in Hs. discriminate Hs. }
  rewrite (BaseSoC_result _ with_analyzer Hreq) in Hs.
  injection Hs as <-. cbn [platform].
  assert (Hgone : forall r, In r required_resources ->
            mem r (remove "serial" (remove "ddram"
                    (remove "cpu_reset" (remove "clk100" resources)))) = false).
  { intros r Hr. simpl in Hr. destruct Hr as [<-|[<-|[<-|[<-|[]]]]].
    - rewrite !mem_remove_ne by discriminate. apply mem_remove_eq.
    - rewrite !mem_remove_ne by discriminate. apply mem_remove_eq.
    - rewrite mem_remove_ne by discriminate. apply mem_remove_eq.
    - apply mem_remove_eq. }
  split; [exact Hgone|].
  split.
  - intros r Hr. simpl in Hr.
    rewrite !mem_remove_ne; [reflexivity| | | |]; intros ->; apply Hr; auto 6.
  - intros b. apply BaseSoC_missing.
    unfold first_missing, required_resources. simpl List.find.
    rewrite (Hgone "clk100") by (simpl; auto). reflexivity.
Qed.

Lemma BaseSoC_claims_only_its_resources_witness :
  exists s,
    BaseSoC sample_platform true = Ok s
    /\ mem "user_led" (platform s) = true
    /\ mem "serial" (platform s) = false.
Proof.
  destruct (BaseSoC sample_platform true) as [s|e] eqn:E; [|vm_compute in E; discriminate E].
  destruct (BaseSoC_claims_only_its_resources sample_platform true s E)
    as [Hgone [Hkept _]].
  exists s. split; [reflexivity|]. split.
  - rewrite Hkept; [reflexivity|].
    simpl. intros [H|[H|[H|[H|[]]]]]; discriminate H.
  - apply Hgone. simpl. auto 6.
Defined.

(** *** The analyzer's signal list *)

(** X9: the signal list built for the analyzer holds every DFI signal of
    the phases p0 and p1 and none of p2 or p3, each signal once: 30 entries,
    15 per phase. *)
Theorem analyzer_signals_cover_p0_p1 :
  (forall (p : dfi_phase) (f : dfi_field),
      In (p, f) analyzer_signals <-> p = p0 \/ p = p1)
  /\ List.NoDup analyzer_signals
  /\ length analyzer_signals = 30%nat
  /\ length (phase_signals p0) = 15%nat
  /\ length (phase_signals p1) = 15%nat.
Proof.
  split.
  { intros p f. split.
    - intros H. destruct p; [left; reflexivity | right; reflexivity | |];
        exfalso; simpl in H; repeat (destruct H as [H|H]; [discriminate H|]); exact H.
    - intros [-> | ->]; destruct f; simpl;
        repeat ((left; reflexivity) || right). }
  split.
  { unfold analyzer_signals, phase_signals. simpl.
    repeat (constructor;
            [simpl; intros H;
             repeat (destruct H as [H|H]; [discriminate H|]); exact H|]).
    constructor. }
  repeat split.
Qed.

End BaseSoC_platform.

(* ===================================================================== *)
(** ** Wiring of the clock domains; the countdown from any state          *)
(* ===================================================================== *)

Section CRG_wiring.

Import CRG.

(** X10: every declared clock domain is driven by exactly one clock
    buffer; no two domains share a PLL output and CLKOUT4 feeds none; a
    domain has a reset synchronizer, and then exactly one, if and only if it
    is not declared reset-less. *)
Theorem domains_wired_consistently (cd : clock_domain) :
  length (List.filter (drives_clock cd) specials) = 1%nat
  /\ (exists o, bufg_source specials cd = Some o /\ o <> CLKOUT4)
  /\ (forall cd', bufg_source specials cd' = bufg_source specials cd -> cd' = cd)
  /\ (reset_less cd = false <-> is_Some (async_reset_of specials cd))
  /\ length (List.filter (drives_reset cd) specials)
     = (if reset_less cd then 0%nat else 1%nat).
Proof.
  split; [destruct cd; reflexivity|].
  split; [destruct cd; eexists; (split; [reflexivity | discriminate])|].
  split; [intros cd'; destruct cd, cd'; simpl; intros H;
          try reflexivity; discriminate H|].
  split; [|destruct cd; reflexivity].
  destruct cd; simpl; split; intros H; try reflexivity; try discriminate H;
    try (eexists; reflexivity); destruct H as [e He]; discriminate He.
Qed.

(** Closed form of [k] edges out of reset from any register state. *)
Lemma iter_sync_clk200 (k : nat) (c : Z) (b : bool) :
  0 <= c <= 15 ->
  Nat.iter k sync_clk200 {| reset_counter := c; ic_reset := b |}
  = {| reset_counter := Z.max 0 (c - Z.of_nat k);
       ic_reset := b && (Z.of_nat k <=? c) |}.
Proof.
  intros Hc. induction k as [|k IH].
  - change (Nat.iter 0 sync_clk200 ?x) with x. f_equal; [lia|].
    destruct (Z.leb_spec (Z.of_nat 0) c); [|lia]. destruct b; reflexivity.
  - rewrite Nat.iter_succ, IH.
    destruct (Z.leb_spec (Z.of_nat k) c) as [Hle|Hgt].
    + destruct (Z.eq_dec (Z.of_nat k) c) as [E|NE].
      * replace (Z.max 0 (c - Z.of_nat k)) with 0 by lia.
        rewrite sync_clk200_done. f_equal; [lia|].
        destruct (Z.leb_spec (Z.of_nat (S k)) c); [lia|].
        symmetry. apply andb_false_r.
      * rewrite sync_clk200_counting by lia. f_equal; [lia|].
        destruct (Z.leb_spec (Z.of_nat (S k)) c); [reflexivity|lia].
    + replace (Z.max 0 (c - Z.of_nat k)) with 0 by lia.
      rewrite andb_false_r, sync_clk200_done. f_equal; [lia|].
      destruct (Z.leb_spec (Z.of_nat (S k)) c); [lia|].
      symmetry. apply andb_false_r.
Qed.

(** X11: from any state of the two registers, [k] edges out of reset
    leave the counter at max(0, reset_counter - k); the IDELAYCTRL reset is
    still high afterwards only if it was high before and k <= reset_counter,
    so it is low after reset_counter + 1 edges at the latest, hence after 16,
    and never rises again without a reset. *)
Theorem countdown_from_any_state (s : regs) (k : nat) :
  0 <= reset_counter s <= 15 ->
  reset_counter (run_with (repeat false k) s)
  = Z.max 0 (reset_counter s - Z.of_nat k)
  /\ (idelayctrl_rst (run_with (repeat false k) s) = true
      <-> idelayctrl_rst s = true /\ Z.of_nat k <= reset_counter s)
  /\ ((16 <= k)%nat ->
      run_with (repeat false k) s = {| reset_counter := 0; ic_reset := false |})
  /\ (idelayctrl_rst s = false -> idelayctrl_rst (run_with (repeat false k) s) = false).
Proof.
  intros Hc. destruct s as [c b]. cbn [reset_counter] in Hc.
  rewrite run_with_released_from, iter_sync_clk200 by exact Hc.
  unfold idelayctrl_rst. cbn [reset_counter ic_reset].
  split; [reflexivity|].
  split.
  { rewrite andb_true_iff, Z.leb_le. reflexivity. }
  split.
  { intros Hk. f_equal; [lia|].
    destruct (Z.leb_spec (Z.of_nat k) c); [lia|]. apply andb_false_r. }
  intros ->. reflexivity.
Qed.

Lemma countdown_from_any_state_witness :
  reset_counter (run_with (repeat false 2) {| reset_counter := 5; ic_reset := true |})
  = Z.max 0 (5 - Z.of_nat 2).
Proof.
  destruct (countdown_from_any_state {| reset_counter := 5; ic_reset := true |} 2)
    as [H _].
  - simpl. lia.
  - exact H.
Defined.

End CRG_wiring.
